(** * swagger-api: the route and schema contract of the two FastAPI services

    A shallow embedding of [src/main.py] and [src/ten.py].  Both files build
    a FastAPI application over the same pydantic models and register
    handlers that return literals; [ten.py] is the richer of the two.

    Layout of the development:
    - Python data: [str], [int], [float], [datetime], [dict];
    - the pydantic models [UserBase], [UserCreate], [UserResponse], [Product];
    - the handler monad [M]: a handler reads the wall clock, may raise an
      [HTTPException], and runs against the state of the process;
    - module [FastAPI]: what the framework does around a handler, as far as
      the declarations in the source ask for it (declared constraints are
      checked first, the handler is called only when none failed, the
      outcome is turned into a status code and a body);
    - modules [Main] and [Ten]: the handlers and the routes of each file;
    - the properties of the routes. *)

From Stdlib Require Import ZArith List String Ascii Bool Lia.
From Stdlib Require Import DecimalString DecimalZ PrimFloat.
Import ListNotations.

Local Open Scope Z_scope.

(** ** Python data *)

(** A Python [str] is a finite sequence of Unicode code points. *)
Definition codepoint : Type := N.
Definition str : Type := list codepoint.

(** A string literal of the source. *)
Definition lit (s : string) : str :=
  map N_of_ascii (list_ascii_of_string s).

(** [len(s)]. *)
Definition len (s : str) : Z := Z.of_nat (List.length s).

(** [a == b] on [str]. *)
Fixpoint str_eqb (a b : str) : bool :=
  match a, b with
  | [], [] => true
  | x :: a', y :: b' => N.eqb x y && str_eqb a' b'
  | _, _ => false
  end.

(** [a == b] on [Optional[str]]: [None] equals only [None]. *)
Definition optional_str_eqb (a b : option str) : bool :=
  match a, b with
  | None, None => true
  | Some x, Some y => str_eqb x y
  | _, _ => false
  end.

(** Truth value of an [Optional[str]] in a condition: [None] and the empty
    string are false, every other string is true. *)
Definition truthy (s : option str) : bool :=
  match s with
  | None => false
  | Some [] => false
  | Some (_ :: _) => true
  end.

(** [str(n)] for an [int], which is what [f"{n}"] interpolates: the decimal
    digits, with a leading minus sign for a negative number. *)
Definition str_of_int (n : Z) : str :=
  lit (NilZero.string_of_int (Z.to_int n)).

(** What [datetime.now()] returns: a naive date and time. *)
Record datetime : Type := mk_datetime {
  year : Z; month : Z; day : Z;
  hour : Z; minute : Z; second : Z; microsecond : Z
}.

(** The values that the dictionaries of this program hold. *)
Inductive value : Type :=
| VNone
| VBool (b : bool)
| VInt (n : Z)
| VStr (s : str)
| VDatetime (t : datetime).

(** A [dict] with [str] keys, in insertion order. *)
Definition dict : Type := list (str * value).

(** [d.get(k)]. *)
Fixpoint dict_get (k : str) (d : dict) : option value :=
  match d with
  | [] => None
  | (k', v) :: d' => if str_eqb k k' then Some v else dict_get k d'
  end.

Definition keys (d : dict) : list str := map fst d.

(** ** Pydantic models *)

Module UserBase.
Record t : Type := make {
  email : str;                     (* email: str = Field(...) *)
  full_name : option str           (* full_name: Optional[str] = Field(None) *)
}.
Definition fields : list str := [lit "email"; lit "full_name"].
End UserBase.

(** [class UserCreate(UserBase)]: the base fields and [password]. *)
Module UserCreate.
Record t : Type := make {
  base : UserBase.t;
  password : str                   (* password: str = Field(..., min_length=8) *)
}.
Definition fields : list str := UserBase.fields ++ [lit "password"].
Definition password_min_length : Z := 8.
End UserCreate.

(** [class UserResponse(UserBase)]: the base fields and [id], [is_active],
    [created_at]. *)
Module UserResponse.
Record t : Type := make {
  base : UserBase.t;
  id : Z;
  is_active : bool;
  created_at : datetime
}.
Definition fields : list str :=
  UserBase.fields ++ [lit "id"; lit "is_active"; lit "created_at"].

(** The fields of a response by name, as they are written to the body. *)
Definition to_dict (u : t) : dict :=
  [ (lit "email", VStr (UserBase.email (base u)));
    (lit "full_name",
      match UserBase.full_name (base u) with
      | Some n => VStr n
      | None => VNone
      end);
    (lit "id", VInt (id u));
    (lit "is_active", VBool (is_active u));
    (lit "created_at", VDatetime (created_at u)) ].
End UserResponse.

(** A [UserCreate] and a [UserResponse] are also a [UserBase]: [user.email]
    and [user.full_name] read the inherited fields. *)
Coercion UserCreate.base : UserCreate.t >-> UserBase.t.
Coercion UserResponse.base : UserResponse.t >-> UserBase.t.

(** The call [UserResponse(id=.., email=.., full_name=.., is_active=..,
    created_at=..)], arguments in the order the handlers write them. *)
Definition UserResponse_
    (id : Z) (email : str) (full_name : option str)
    (is_active : bool) (created_at : datetime) : UserResponse.t :=
  UserResponse.make (UserBase.make email full_name) id is_active created_at.

Module Product.
Record t : Type := make {
  id : Z;
  name : str;
  price : float;
  category : option str            (* category: Optional[str] = None *)
}.
End Product.

(** ** Handlers

    A handler is called with its validated arguments.  It may read the wall
    clock ([datetime.now()]) and the module's global names, it may raise an
    [HTTPException], and it returns a value.  The state of the process is
    threaded through so that what a handler leaves behind can be stated. *)

Record World : Type := mk_World {
  clock : datetime;                  (* what datetime.now() reads *)
  globals : dict                     (* the module's mutable names *)
}.

Module HTTPException.
Record t : Type := make {
  status_code : Z;
  detail : str
}.
End HTTPException.

Definition M (A : Type) : Type := World -> (HTTPException.t + A) * World.

Definition ret {A : Type} (a : A) : M A :=
  fun w => (inr a, w).

Definition bind {A B : Type} (m : M A) (k : A -> M B) : M B :=
  fun w =>
    match m w with
    | (inr a, w') => k a w'
    | (inl e, w') => (inl e, w')
    end.

(** [raise e]: the rest of the handler is skipped. *)
Definition raise {A : Type} (e : HTTPException.t) : M A :=
  fun w => (inl e, w).

(** [datetime.now()]. *)
Definition datetime_now : M datetime :=
  fun w => (inr (clock w), w).

Declare Scope handler_scope.
Delimit Scope handler_scope with handler.
Notation "x <- m ;; k" := (bind m (fun x => k))
  (at level 61, m at next level, right associativity) : handler_scope.

(** ** The framework around a handler *)

Module FastAPI.

(** Why a declared constraint rejected a request. *)
Inductive ErrorKind : Type :=
| field_required
| not_greater_than (limit : Z)
| shorter_than (min_length : Z).

Record ValidationError : Type := mk_error {
  loc : list str;                  (* where: ["path"; "user_id"], ["body"; "password"] *)
  kind : ErrorKind
}.

(** The result of checking one part of a request: the errors found, or the
    value that is handed to the handler. *)
Definition Validated (A : Type) : Type := list ValidationError + A.

(** Two parts checked side by side: every error of both is reported. *)
Definition both {A B : Type} (a : Validated A) (b : Validated B)
    : Validated (A * B) :=
  match a, b with
  | inr x, inr y => inr (x, y)
  | inl ea, inr _ => inl ea
  | inr _, inl eb => inl eb
  | inl ea, inl eb => inl (ea ++ eb)
  end.

Definition vmap {A B : Type} (f : A -> B) (a : Validated A) : Validated B :=
  match a with
  | inr x => inr (f x)
  | inl e => inl e
  end.

(** [Path(..., gt=bound)] on an integer path parameter. *)
Definition Path_gt (name : str) (bound : Z) (v : Z) : Validated Z :=
  if bound <? v then inr v
  else inl [mk_error [lit "path"; name] (not_greater_than bound)].

(** [Query(default)] on a query parameter that may be left out. *)
Definition Query {A : Type} (default : A) (v : option A) : A :=
  match v with
  | Some x => x
  | None => default
  end.

(** [Field(...)] on a [str] field of a body: the field is required. *)
Definition Field_required (name : str) (v : option str) : Validated str :=
  match v with
  | Some s => inr s
  | None => inl [mk_error [lit "body"; name] field_required]
  end.

(** [Field(..., min_length=n)] on a [str] field of a body: required, and
    at least [n] characters long. *)
Definition Field_min_length (name : str) (n : Z) (v : option str)
    : Validated str :=
  match v with
  | Some s =>
      if len s <? n then inl [mk_error [lit "body"; name] (shorter_than n)]
      else inr s
  | None => inl [mk_error [lit "body"; name] field_required]
  end.

(** What a response carries. *)
Inductive Content : Type :=
| of_dict (d : dict)
| of_user (u : UserResponse.t)
| of_users (us : list UserResponse.t)
| of_products (ps : list Product.t)
| of_errors (errs : list ValidationError).

Record Response : Type := mk_Response {
  status_code : Z;
  content : Content
}.

(** A request that failed validation: status 422, the errors as detail.
    No handler is called. *)
Definition unprocessable (errs : list ValidationError) (w : World)
    : Response * World :=
  (mk_Response 422 (of_errors errs), w).

(** A handler was called: its value is sent with the route's status code;
    an [HTTPException] is sent with its own status code and
    [{"detail": ...}]. *)
Definition respond {A : Type} (route_status : Z) (render : A -> Content)
    (h : M A) (w : World) : Response * World :=
  match h w with
  | (inr a, w') => (mk_Response route_status (render a), w')
  | (inl e, w') =>
      (mk_Response (HTTPException.status_code e)
         (of_dict [(lit "detail", VStr (HTTPException.detail e))]), w')
  end.

End FastAPI.

(** A JSON object sent as a request body, read at the keys the models
    name: [None] is a key that is left out, [Some s] a key that holds the
    string [s].  (For the optional [full_name] a null is read like a key
    left out.  A null or a value that is not a string under [email] or
    [password] is not among these bodies.) *)
Module Payload.
Record t : Type := make {
  email : option str;
  full_name : option str;
  password : option str
}.
End Payload.

(** Parsing a body as [UserBase]: other keys are ignored. *)
Definition UserBase_parse (b : Payload.t) : FastAPI.Validated UserBase.t :=
  FastAPI.vmap (fun e => UserBase.make e (Payload.full_name b))
    (FastAPI.Field_required (lit "email") (Payload.email b)).

(** Parsing a body as [UserCreate]. *)
Definition UserCreate_parse (b : Payload.t) : FastAPI.Validated UserCreate.t :=
  FastAPI.vmap (fun bp => UserCreate.make (fst bp) (snd bp))
    (FastAPI.both (UserBase_parse b)
       (FastAPI.Field_min_length (lit "password")
          UserCreate.password_min_length (Payload.password b))).

(** ** The values of an API description

    What [get_openapi] returns and what the constructor of the application
    takes as [openapi_tags] and [servers]: nested lists and dictionaries. *)

#[warnings="-register-all"]
Inductive json : Type :=
| JNone
| JBool (b : bool)
| JInt (n : Z)
| JFloat (x : float)
| JStr (s : str)
| JList (items : list json)
| JDict (items : list (str * json)).

(** [d[k]] on a dictionary held as its items in insertion order; [None]
    stands for the [KeyError] of a key that is not there. *)
Fixpoint item_get {V : Type} (k : str) (d : list (str * V)) : option V :=
  match d with
  | [] => None
  | (k', v') :: d' => if str_eqb k k' then Some v' else item_get k d'
  end.

(** [d[k] = v]: the value of a key that is there is replaced where it
    stands, a new key goes to the end. *)
Fixpoint item_set {V : Type} (k : str) (v : V) (d : list (str * V))
    : list (str * V) :=
  match d with
  | [] => [(k, v)]
  | (k', v') :: d' =>
      if str_eqb k k' then (k', v) :: d' else (k', v') :: item_set k v d'
  end.

(** What a failed subscript raises. *)
Inductive PyError : Type :=
| KeyError (key : str)
| TypeError.

(** [{"name": .., "description": ..}] and [{"url": .., "description": ..}]. *)
Definition tag_entry (name description : string) : json :=
  JDict [(lit "name", JStr (lit name)); (lit "description", JStr (lit description))].

Definition server_entry (url description : string) : json :=
  JDict [(lit "url", JStr (lit url)); (lit "description", JStr (lit description))].

(** ** [src/main.py] *)

Module Main.
Import FastAPI.
Local Open Scope handler_scope.

(** [@app.get("/")] *)
Definition root : M dict :=
  now <- datetime_now ;;
  ret [(lit "status", VStr (lit "healthy")); (lit "timestamp", VDatetime now)].

(** [@app.get("/users", response_model=List[UserResponse])] *)
Definition get_users (skip limit : Z) : M (list UserResponse.t) :=
  now <- datetime_now ;;
  let mock_users :=
    [UserResponse_ 1 (lit "john@example.com") (Some (lit "John Doe")) true now] in
  ret mock_users.

(** [@app.get("/users/{user_id}", response_model=UserResponse)] *)
Definition get_user (user_id : Z) : M UserResponse.t :=
  if negb (user_id =? 1) then
    raise (HTTPException.make 404 (lit "User not found"))
  else
    now <- datetime_now ;;
    ret (UserResponse_ user_id (lit "john@example.com")
           (Some (lit "John Doe")) true now).

(** The requests the routes of this file match, parameters already read
    at their declared types. *)
Inductive Request : Type :=
| GET_root
| GET_users (skip limit : option Z)
| GET_users_id (user_id : Z).

(** A handler together with the arguments it is called with. *)
Inductive Call : Type :=
| call_root
| call_get_users (skip limit : Z)
| call_get_user (user_id : Z).

(** The declared constraints of the matched route, checked on the
    request. *)
Definition validate (r : Request) : Validated Call :=
  match r with
  | GET_root => inr call_root
  | GET_users skip limit =>
      inr (call_get_users (Query 0 skip) (Query 10 limit))
  | GET_users_id user_id =>
      vmap call_get_user (Path_gt (lit "user_id") 0 user_id)
  end.

Definition invoke (c : Call) : World -> Response * World :=
  match c with
  | call_root => respond 200 of_dict root
  | call_get_users skip limit => respond 200 of_users (get_users skip limit)
  | call_get_user user_id => respond 200 of_user (get_user user_id)
  end.

(** One request served: validation first, the handler only after it. *)
Definition serve (r : Request) (w : World) : Response * World :=
  match validate r with
  | inl errs => unprocessable errs w
  | inr c => invoke c w
  end.
(** [app = FastAPI(title=.., description=.., version=.., openapi_tags=..,
    servers=..)]: the description data handed to the constructor. *)
Definition title : str := lit "My API".
Definition description : str := lit "API for managing users and products".
Definition version : str := lit "1.0.0".

Definition openapi_tags : list json :=
  [ tag_entry "Users" "Operations with users";
    tag_entry "Products" "Operations with products";
    tag_entry "Health" "Health check endpoints" ].

Definition servers : list json :=
  [ server_entry "http://localhost:8000" "Development server";
    server_entry "https://api.example.com" "Production server" ].
End Main.

(** ** [src/ten.py] *)

Module Ten.
Import FastAPI.
Local Open Scope handler_scope.
Local Set Warnings "-inexact-float".

(** [@app.get("/")] *)
Definition root : M dict :=
  now <- datetime_now ;;
  ret [(lit "status", VStr (lit "healthy")); (lit "timestamp", VDatetime now)].

(** [@app.get("/users", response_model=List[UserResponse])] *)
Definition get_users (skip limit : Z) : M (list UserResponse.t) :=
  now <- datetime_now ;;
  let mock_users :=
    [UserResponse_ 1 (lit "john@example.com") (Some (lit "John Doe")) true now] in
  ret mock_users.

(** [@app.get("/users/{user_id}", response_model=UserResponse)] *)
Definition get_user (user_id : Z) : M UserResponse.t :=
  if negb (user_id =? 1) then
    raise (HTTPException.make 404 (lit "User not found"))
  else
    now <- datetime_now ;;
    ret (UserResponse_ user_id (lit "john@example.com")
           (Some (lit "John Doe")) true now).

(** [@app.post("/users", response_model=UserResponse, status_code=201)] *)
Definition create_user (user : UserCreate.t) : M UserResponse.t :=
  now <- datetime_now ;;
  ret (UserResponse_ 2 (UserBase.email user) (UserBase.full_name user)
         true now).

(** [@app.put("/users/{user_id}", response_model=UserResponse)] *)
Definition update_user (user_id : Z) (user : UserBase.t) : M UserResponse.t :=
  now <- datetime_now ;;
  ret (UserResponse_ user_id (UserBase.email user) (UserBase.full_name user)
         true now).

(** [@app.delete("/users/{user_id}")] *)
Definition delete_user (user_id : Z) : M dict :=
  ret [(lit "message",
        VStr (lit "User " ++ str_of_int user_id ++ lit " deleted successfully"))].

(** [@app.get("/products", response_model=List[Product])] *)
Definition get_products (category : option str) : M (list Product.t) :=
  let products :=
    [ Product.make 1 (lit "Laptop") 999.99 (Some (lit "Electronics"));
      Product.make 2 (lit "Book") 19.99 (Some (lit "Books")) ] in
  let products :=
    if truthy category then
      filter (fun p => optional_str_eqb (Product.category p) category) products
    else products in
  ret products.

(** The requests the routes of this file match, parameters already read
    at their declared types. *)
Inductive Request : Type :=
| GET_root
| GET_users (skip limit : option Z)
| GET_users_id (user_id : Z)
| POST_users (body : Payload.t)
| PUT_users_id (user_id : Z) (body : Payload.t)
| DELETE_users_id (user_id : Z)
| GET_products (category : option str).

(** A handler together with the arguments it is called with. *)
Inductive Call : Type :=
| call_root
| call_get_users (skip limit : Z)
| call_get_user (user_id : Z)
| call_create_user (user : UserCreate.t)
| call_update_user (user_id : Z) (user : UserBase.t)
| call_delete_user (user_id : Z)
| call_get_products (category : option str).

(** The declared constraints of the matched route, checked on the
    request. *)
Definition validate (r : Request) : Validated Call :=
  match r with
  | GET_root => inr call_root
  | GET_users skip limit =>
      inr (call_get_users (Query 0 skip) (Query 10 limit))
  | GET_users_id user_id =>
      vmap call_get_user (Path_gt (lit "user_id") 0 user_id)
  | POST_users body =>
      vmap call_create_user (UserCreate_parse body)
  | PUT_users_id user_id body =>
      vmap (call_update_user user_id) (UserBase_parse body)
  | DELETE_users_id user_id => inr (call_delete_user user_id)
  | GET_products category =>
      (* Query(None): a parameter left out is None *)
      inr (call_get_products category)
  end.

Definition invoke (c : Call) : World -> Response * World :=
  match c with
  | call_root => respond 200 of_dict root
  | call_get_users skip limit => respond 200 of_users (get_users skip limit)
  | call_get_user user_id => respond 200 of_user (get_user user_id)
  | call_create_user user => respond 201 of_user (create_user user)
  | call_update_user user_id user =>
      respond 200 of_user (update_user user_id user)
  | call_delete_user user_id => respond 200 of_dict (delete_user user_id)
  | call_get_products category =>
      respond 200 of_products (get_products category)
  end.

(** One request served: validation first, the handler only after it. *)
Definition serve (r : Request) (w : World) : Response * World :=
  match validate r with
  | inl errs => unprocessable errs w
  | inr c => invoke c w
  end.
(** The application object, as far as [custom_openapi] reads and writes it:
    [app.title], [app.version], [app.description], [app.routes] and the
    cached [app.openapi_schema].  What the routes are is the framework's
    business. *)
Record App (Routes : Type) : Type := mk_App {
  title : str;
  version : str;
  description : str;
  routes : Routes;
  openapi_schema : option (list (str * json))
}.
Arguments mk_App {Routes}.
Arguments title {Routes}.
Arguments version {Routes}.
Arguments description {Routes}.
Arguments routes {Routes}.
Arguments openapi_schema {Routes}.

(** [app = FastAPI(title=.., description=.., version=.., ...)]: nothing is
    cached at first. *)
Definition app {Routes : Type} (registered : Routes) : App Routes :=
  mk_App (lit "My API") (lit "1.0.0")
    (lit "API for managing users and products") registered None.

(** [app.openapi_schema = schema]. *)
Definition set_openapi_schema {Routes : Type} (a : App Routes)
    (schema : list (str * json)) : App Routes :=
  mk_App (title a) (version a) (description a) (routes a) (Some schema).

(** [def custom_openapi()], with the framework's [get_openapi] as a
    parameter.  [if app.openapi_schema:] holds for a cached dictionary with
    at least one item; [None] and the empty dictionary are false. *)
Definition custom_openapi {Routes : Type}
    (get_openapi : str -> str -> str -> Routes -> list (str * json))
    (a : App Routes) : (PyError + list (str * json)) * App Routes :=
  match openapi_schema a with
  | Some (item :: items) => (inr (item :: items), a)
  | _ =>
      let openapi_schema :=
        get_openapi (title a) (version a) (description a) (routes a) in
      (* openapi_schema["components"]["securitySchemes"] = {...} *)
      match item_get (lit "components") openapi_schema with
      | None => (inl (KeyError (lit "components")), a)
      | Some (JDict components) =>
          let components :=
            item_set (lit "securitySchemes")
              (JDict
                 [(lit "BearerAuth",
                   JDict [ (lit "type", JStr (lit "http"));
                           (lit "scheme", JStr (lit "bearer"));
                           (lit "bearerFormat", JStr (lit "JWT")) ])])
              components in
          let openapi_schema :=
            item_set (lit "components") (JDict components) openapi_schema in
          (* openapi_schema["servers"] = [...] *)
          let openapi_schema :=
            item_set (lit "servers")
              (JList
                 [ server_entry "http://localhost:8000" "Development server";
                   server_entry "https://api.example.com" "Production server" ])
              openapi_schema in
          (* openapi_schema["tags"] = [...] *)
          let openapi_schema :=
            item_set (lit "tags")
              (JList
                 [ tag_entry "Users" "Operations with users";
                   tag_entry "Products" "Operations with products";
                   tag_entry "Health" "Health check endpoints" ])
              openapi_schema in
          (* app.openapi_schema = openapi_schema *)
          (inr openapi_schema, set_openapi_schema a openapi_schema)
      | Some _ => (inl TypeError, a)
      end
  end.
End Ten.

(** ** The values the routes are expected to send *)

Import FastAPI.

(** The one mock user, created at [now]. *)
Definition john (now : datetime) : UserResponse.t :=
  {| UserResponse.base :=
       {| UserBase.email := lit "john@example.com";
          UserBase.full_name := Some (lit "John Doe") |};
     UserResponse.id := 1;
     UserResponse.is_active := true;
     UserResponse.created_at := now |}.

#[local] Set Warnings "-inexact-float".

Definition laptop : Product.t :=
  Product.make 1 (lit "Laptop") 999.99 (Some (lit "Electronics")).

Definition book : Product.t :=
  Product.make 2 (lit "Book") 19.99 (Some (lit "Books")).

Definition catalog : list Product.t := [laptop; book].

(** Status 404 with [{"detail": "User not found"}]. *)
Definition user_not_found : Response :=
  mk_Response 404 (of_dict [(lit "detail", VStr (lit "User not found"))]).

(** The single error reported for a [user_id] that is not above 0. *)
Definition user_id_not_positive : list ValidationError :=
  [mk_error [lit "path"; lit "user_id"] (not_greater_than 0)].

(** A response without its time stamp. *)
Definition without_created_at (u : UserResponse.t)
    : UserBase.t * Z * bool :=
  (UserResponse.base u, UserResponse.id u, UserResponse.is_active u).

(** The reading of the products route under which a supplied category
    always filters: the catalog when no category is given, else the items
    of the catalog whose category is the one given. *)
Definition filters_whenever_supplied (category : option str) (w : World)
    : Prop :=
  fst (Ten.serve (Ten.GET_products category) w) =
  mk_Response 200
    (of_products
       match category with
       | None => catalog
       | Some c =>
           filter (fun p => optional_str_eqb (Product.category p) (Some c))
             catalog
       end).

(** A state of the process to run the routes in. *)
Definition a_world : World :=
  mk_World (mk_datetime 2024 1 15 9 30 0 0)
    [(lit "__name__", VStr (lit "__main__"))].

Definition another_world : World :=
  mk_World (mk_datetime 2025 6 1 23 59 59 999999) [].

(** A request of [main.py], sent to [ten.py] instead. *)
Definition Main_in_Ten (r : Main.Request) : Ten.Request :=
  match r with
  | Main.GET_root => Ten.GET_root
  | Main.GET_users skip limit => Ten.GET_users skip limit
  | Main.GET_users_id user_id => Ten.GET_users_id user_id
  end.

(** The bearer scheme [custom_openapi] declares. *)
Definition bearer_auth : json :=
  JDict
    [(lit "BearerAuth",
      JDict [ (lit "type", JStr (lit "http"));
              (lit "scheme", JStr (lit "bearer"));
              (lit "bearerFormat", JStr (lit "JWT")) ])].

(** An application whose routes are known by their paths, and a generator
    in the shape of the framework's: the version of the format, the [info]
    block, a path item per route, and the [components] with the schemas of
    the models. *)
Definition some_paths : list str :=
  [lit "/"; lit "/users"; lit "/users/{user_id}"; lit "/products"].

Definition a_get_openapi (title version description : str)
    (routes : list str) : list (str * json) :=
  [ (lit "openapi", JStr (lit "3.0.2"));
    (lit "info",
      JDict [ (lit "title", JStr title);
              (lit "description", JStr description);
              (lit "version", JStr version) ]);
    (lit "paths", JDict (map (fun path => (path, JDict [])) routes));
    (lit "components",
      JDict [(lit "schemas", JDict [(lit "UserResponse", JDict [])])]) ].

(** A generator for an application without models: no [components]. *)
Definition a_bare_get_openapi (title version description : str)
    (routes : list str) : list (str * json) :=
  [ (lit "openapi", JStr (lit "3.0.2"));
    (lit "info", JDict [(lit "title", JStr title)]);
    (lit "paths", JDict []) ].


(** Unfolding one served request down to the handler's result. *)
Ltac serve_unfold :=
  unfold Ten.serve, Main.serve, Ten.validate, Main.validate, vmap, Query,
    Ten.invoke, Main.invoke, respond, unprocessable.

Ltac handler_unfold :=
  unfold Ten.root, Main.root, Ten.get_users, Main.get_users,
    Ten.get_user, Main.get_user, Ten.create_user, Ten.update_user,
    Ten.delete_user, Ten.get_products, bind, ret, raise, datetime_now.

(** A hypothesis names a route other than the one at hand. *)
Ltac other_route :=
  intros;
  repeat match goal with
         | H : ex _ |- _ => destruct H
         | H : _ /\ _ |- _ => destruct H
         end;
  discriminate.

(** ** Facts about the Python data *)

Lemma str_eqb_refl (a : str) : str_eqb a a = true.
Proof.
  induction a as [|x a IH]; simpl; [reflexivity|].
  now rewrite N.eqb_refl, IH.
Qed.

Lemma str_eqb_eq (a b : str) : str_eqb a b = true <-> a = b.
Proof.
  split.
  - revert b; induction a as [|x a IH]; intros [|y b] H; simpl in H;
      try discriminate; [reflexivity|].
    apply andb_true_iff in H as [Hxy Hab].
    apply N.eqb_eq in Hxy. apply IH in Hab. now subst.
  - intros ->. apply str_eqb_refl.
Qed.

Lemma optional_str_eqb_eq (a b : option str) :
  optional_str_eqb a b = true <-> a = b.
Proof.
  destruct a as [x|], b as [y|]; simpl; try (split; congruence).
  rewrite str_eqb_eq. split; congruence.
Qed.

Lemma truthy_nonempty (c : str) : c <> [] -> truthy (Some c) = true.
Proof. destruct c; [congruence | reflexivity]. Qed.




Example str_of_int_5 : str_of_int 5 = lit "5".
Proof. reflexivity. Qed.

Example str_of_int_minus_12 : str_of_int (-12) = lit "-12".
Proof. reflexivity. Qed.

Example str_of_int_0 : str_of_int 0 = lit "0".
Proof. reflexivity. Qed.

(** The keys written for a response are the declared fields of the model. *)
Lemma to_dict_keys (u : UserResponse.t) :
  keys (UserResponse.to_dict u) = UserResponse.fields.
Proof. reflexivity. Qed.

(** ** Facts about the framework layer *)

Lemma Path_gt_ok (name : str) (bound v : Z) :
  bound < v -> Path_gt name bound v = inr v.
Proof. unfold Path_gt. intros H. apply Z.ltb_lt in H. now rewrite H. Qed.

Lemma Path_gt_reject (name : str) (bound v : Z) :
  v <= bound ->
  Path_gt name bound v = inl [mk_error [lit "path"; name] (not_greater_than bound)].
Proof.
  unfold Path_gt. intros H.
  destruct (Z.ltb_spec bound v); [lia | reflexivity].
Qed.

Lemma Field_min_length_ok (name : str) (n : Z) (s : str) :
  n <= len s -> Field_min_length name n (Some s) = inr s.
Proof.
  unfold Field_min_length. intros H.
  destruct (Z.ltb_spec (len s) n); [lia | reflexivity].
Qed.

Lemma Field_min_length_short (name : str) (n : Z) (s : str) :
  len s < n ->
  Field_min_length name n (Some s) =
  inl [mk_error [lit "body"; name] (shorter_than n)].
Proof.
  unfold Field_min_length. intros H. apply Z.ltb_lt in H. now rewrite H.
Qed.

(** A body is accepted as [UserCreate] exactly when [email] is there and
    [password] is there with at least 8 characters. *)
Lemma UserCreate_parse_ok (b : Payload.t) (u : UserCreate.t) :
  UserCreate_parse b = inr u <->
  exists e p,
    Payload.email b = Some e /\ Payload.password b = Some p /\ 8 <= len p /\
    u = UserCreate.make (UserBase.make e (Payload.full_name b)) p.
Proof.
  unfold UserCreate_parse, UserBase_parse, Field_required, Field_min_length,
    UserCreate.password_min_length.
  destruct b as [[e|] fn [p|]]; simpl.
  - destruct (Z.ltb_spec (len p) 8); simpl.
    + split; [discriminate|]. intros (e' & p' & He & Hp & Hlen & _).
      injection Hp as <-. lia.
    + split.
      * intros H0. injection H0 as <-. now exists e, p.
      * intros (e' & p' & He & Hp & _ & ->). now injection He as <-; injection Hp as <-.
  - split; [discriminate|]. intros (e' & p' & _ & Hp & _). discriminate.
  - destruct (len p <? 8); simpl; (split; [discriminate|]);
      intros (e' & p' & He & _); discriminate.
  - split; [discriminate|]. intros (e' & p' & He & _). discriminate.
Qed.

(** ** The routes *)

(** *** GET /users/{user_id} *)

Lemma get_user_one (w : World) :
  Ten.get_user 1 w = (inr (john (clock w)), w) /\
  Main.get_user 1 w = (inr (john (clock w)), w).
Proof. split; reflexivity. Qed.

Lemma get_user_other (user_id : Z) (w : World) :
  user_id <> 1 ->
  Ten.get_user user_id w =
    (inl (HTTPException.make 404 (lit "User not found")), w) /\
  Main.get_user user_id w =
    (inl (HTTPException.make 404 (lit "User not found")), w).
Proof.
  intros H. handler_unfold.
  destruct (Z.eqb_spec user_id 1) as [E|_]; [contradiction | split; reflexivity].
Qed.

(** C1.  For every [user_id > 0], GET /users/{user_id} answers 404 with the
    detail "User not found" exactly when [user_id] is not 1, and for
    [user_id = 1] it answers 200 with the fixed record (id 1,
    john@example.com, John Doe, active).  This holds for the route of
    [ten.py] and for the route of [main.py], and the state of the process
    is left as it was. *)
Theorem C1_get_user_by_id (user_id : Z) (w : World) (Hpos : 0 < user_id) :
  (Ten.serve (Ten.GET_users_id user_id) w = (user_not_found, w)
     <-> user_id <> 1) /\
  (user_id = 1 ->
     Ten.serve (Ten.GET_users_id user_id) w =
       (mk_Response 200
          (of_user
             {| UserResponse.base :=
                  {| UserBase.email := lit "john@example.com";
                     UserBase.full_name := Some (lit "John Doe") |};
                UserResponse.id := 1;
                UserResponse.is_active := true;
                UserResponse.created_at := clock w |}),
        w)) /\
  (Main.serve (Main.GET_users_id user_id) w = (user_not_found, w)
     <-> user_id <> 1) /\
  (user_id = 1 ->
     Main.serve (Main.GET_users_id user_id) w =
       (mk_Response 200
          (of_user
             {| UserResponse.base :=
                  {| UserBase.email := lit "john@example.com";
                     UserBase.full_name := Some (lit "John Doe") |};
                UserResponse.id := 1;
                UserResponse.is_active := true;
                UserResponse.created_at := clock w |}),
        w)).
Proof.
  assert (Hone : user_id = 1 ->
            Ten.serve (Ten.GET_users_id user_id) w =
              (mk_Response 200 (of_user (john (clock w))), w) /\
            Main.serve (Main.GET_users_id user_id) w =
              (mk_Response 200 (of_user (john (clock w))), w)).
  { intros ->. split; reflexivity. }
  assert (Hother : user_id <> 1 ->
            Ten.serve (Ten.GET_users_id user_id) w = (user_not_found, w) /\
            Main.serve (Main.GET_users_id user_id) w = (user_not_found, w)).
  { intros Hne. serve_unfold. rewrite (Path_gt_ok _ _ _ Hpos).
    destruct (get_user_other user_id w Hne) as [-> ->]. split; reflexivity. }
  repeat split.
  - intros H ->. destruct (Hone eq_refl) as [H1 _]. rewrite H1 in H. discriminate.
  - intros Hne. now apply Hother.
  - intros E. now apply Hone.
  - intros H ->. destruct (Hone eq_refl) as [_ H1]. rewrite H1 in H. discriminate.
  - intros Hne. now apply Hother.
  - intros E. now apply Hone.
Qed.

Lemma C1_get_user_by_id_witness :
  Ten.serve (Ten.GET_users_id 2) a_world = (user_not_found, a_world) /\
  Ten.serve (Ten.GET_users_id 1) a_world =
    (mk_Response 200
       (of_user
          {| UserResponse.base :=
               {| UserBase.email := lit "john@example.com";
                  UserBase.full_name := Some (lit "John Doe") |};
             UserResponse.id := 1;
             UserResponse.is_active := true;
             UserResponse.created_at := clock a_world |}),
     a_world).
Proof.
  split.
  - apply (C1_get_user_by_id 2 a_world); [lia | discriminate].
  - apply (C1_get_user_by_id 1 a_world); [lia | reflexivity].
Defined.

(** *** GET /users *)

(** C2.  Whatever [skip] and [limit] are (given or left out), GET /users
    answers 200 with the same list of one user: id 1, john@example.com,
    John Doe, active.  The handler itself ignores both arguments. *)
Theorem C2_get_users_ignores_paging (skip limit : option Z) (w : World) :
  Ten.serve (Ten.GET_users skip limit) w =
    (mk_Response 200
       (of_users
          [{| UserResponse.base :=
                {| UserBase.email := lit "john@example.com";
                   UserBase.full_name := Some (lit "John Doe") |};
              UserResponse.id := 1;
              UserResponse.is_active := true;
              UserResponse.created_at := clock w |}]),
     w) /\
  Main.serve (Main.GET_users skip limit) w =
    (mk_Response 200
       (of_users
          [{| UserResponse.base :=
                {| UserBase.email := lit "john@example.com";
                   UserBase.full_name := Some (lit "John Doe") |};
              UserResponse.id := 1;
              UserResponse.is_active := true;
              UserResponse.created_at := clock w |}]),
     w) /\
  (forall skip' limit' : Z,
     exists user,
       Ten.get_users skip' limit' w = (inr [user], w) /\
       Main.get_users skip' limit' w = (inr [user], w) /\
       UserResponse.id user = 1 /\
       UserBase.email user = lit "john@example.com" /\
       UserBase.full_name user = Some (lit "John Doe") /\
       UserResponse.is_active user = true /\
       UserResponse.created_at user = clock w).
Proof.
  split; [reflexivity|]. split; [reflexivity|].
  intros skip' limit'. exists (john (clock w)). repeat split.
Qed.

(** C3.  For every [user_id <= 0], GET /users/{user_id} fails validation:
    the [gt=0] constraint of the path parameter rejects the request, no call
    of the handler is made, and the answer is 422 with that one error, not
    404. *)
Theorem C3_nonpositive_id_is_rejected (user_id : Z) (w : World)
    (Hnonpos : user_id <= 0) :
  Ten.validate (Ten.GET_users_id user_id) = inl user_id_not_positive /\
  Ten.serve (Ten.GET_users_id user_id) w =
    (mk_Response 422 (of_errors user_id_not_positive), w) /\
  status_code (fst (Ten.serve (Ten.GET_users_id user_id) w)) <> 404 /\
  Main.validate (Main.GET_users_id user_id) = inl user_id_not_positive /\
  Main.serve (Main.GET_users_id user_id) w =
    (mk_Response 422 (of_errors user_id_not_positive), w).
Proof.
  serve_unfold. rewrite (Path_gt_reject _ _ _ Hnonpos).
  repeat split. simpl. discriminate.
Qed.

Lemma C3_nonpositive_id_is_rejected_witness :
  Ten.serve (Ten.GET_users_id 0) a_world =
    (mk_Response 422 (of_errors user_id_not_positive), a_world).
Proof.
  apply (C3_nonpositive_id_is_rejected 0 a_world). lia.
Defined.

(** *** POST /users *)

Lemma create_user_run (user : UserCreate.t) (w : World) :
  Ten.create_user user w =
    (inr {| UserResponse.base :=
              {| UserBase.email := UserBase.email user;
                 UserBase.full_name := UserBase.full_name user |};
            UserResponse.id := 2;
            UserResponse.is_active := true;
            UserResponse.created_at := clock w |},
     w).
Proof. reflexivity. Qed.

Lemma POST_users_accepted
    (email : str) (full_name : option str) (password : str) (w : World) :
  8 <= len password ->
  Ten.serve
    (Ten.POST_users (Payload.make (Some email) full_name (Some password))) w =
  (mk_Response 201
     (of_user
        {| UserResponse.base :=
             {| UserBase.email := email;
                UserBase.full_name := full_name |};
           UserResponse.id := 2;
           UserResponse.is_active := true;
           UserResponse.created_at := clock w |}),
   w).
Proof.
  intros Hlen. serve_unfold.
  assert (Hparse :
    UserCreate_parse (Payload.make (Some email) full_name (Some password)) =
    inr (UserCreate.make (UserBase.make email full_name) password)).
  { apply UserCreate_parse_ok. exists email, password. now repeat split. }
  rewrite Hparse. reflexivity.
Qed.

(** C4.  A body with an email and a password of at least 8 characters is
    answered 201 with id 2, the email and the full name of the body, and
    active.  A body whose password is shorter than 8 characters, or that
    lacks the email or the password, fails validation: errors are reported
    with status 422 and [create_user] is not called. *)
Theorem C4_create_user (email : str) (full_name : option str) (w : World) :
  (forall password : str,
     8 <= len password ->
     Ten.serve
       (Ten.POST_users (Payload.make (Some email) full_name (Some password))) w =
     (mk_Response 201
        (of_user
           {| UserResponse.base :=
                {| UserBase.email := email;
                   UserBase.full_name := full_name |};
              UserResponse.id := 2;
              UserResponse.is_active := true;
              UserResponse.created_at := clock w |}),
      w)) /\
  (forall body : Payload.t,
     Payload.email body = None \/
     Payload.password body = None \/
     (exists password, Payload.password body = Some password /\ len password < 8) ->
     exists errs,
       errs <> [] /\
       Ten.validate (Ten.POST_users body) = inl errs /\
       Ten.serve (Ten.POST_users body) w =
         (mk_Response 422 (of_errors errs), w)).
Proof.
  split.
  - intros password Hlen. now apply POST_users_accepted.
  - intros body Hbad.
    destruct (UserCreate_parse body) as [errs|u] eqn:Hparse.
    + exists errs. serve_unfold. rewrite Hparse. repeat split.
      intros ->. revert Hparse.
      unfold UserCreate_parse, UserBase_parse, Field_required,
        Field_min_length, both, vmap.
      destruct (Payload.email body), (Payload.password body) as [p|];
        try discriminate.
      * destruct (len p <? _); discriminate.
      * destruct (len p <? _); discriminate.
    + apply UserCreate_parse_ok in Hparse
        as (e & p & He & Hp & Hlen & _).
      destruct Hbad as [H|[H|(p' & H & Hshort)]]; try congruence.
      rewrite Hp in H. injection H as <-. lia.
Qed.

Lemma C4_create_user_witness :
  Ten.serve
    (Ten.POST_users
       (Payload.make (Some (lit "a@b.com")) None (Some (lit "password1"))))
    a_world =
  (mk_Response 201
     (of_user
        {| UserResponse.base :=
             {| UserBase.email := lit "a@b.com";
                UserBase.full_name := None |};
           UserResponse.id := 2;
           UserResponse.is_active := true;
           UserResponse.created_at := clock a_world |}),
   a_world) /\
  exists errs,
    errs <> [] /\
    Ten.serve
      (Ten.POST_users
         (Payload.make (Some (lit "a@b.com")) None (Some (lit "short"))))
      a_world =
    (mk_Response 422 (of_errors errs), a_world).
Proof.
  split.
  - apply (C4_create_user (lit "a@b.com") None a_world). vm_compute. discriminate.
  - destruct (proj2 (C4_create_user (lit "a@b.com") None a_world)
                (Payload.make (Some (lit "a@b.com")) None (Some (lit "short"))))
      as (errs & Hne & _ & Hserve).
    + right; right. exists (lit "short"). split; [reflexivity | vm_compute; reflexivity].
    + exists errs. split; assumption.
Defined.

(** *** PUT /users/{user_id} *)

(** C5.  For every [user_id] (positive or not) and every [UserBase] body,
    PUT /users/{user_id} answers 200 with the id of the path, the email and
    the full name of the body, and active; nothing is looked up, so no id
    is refused. *)
Theorem C5_update_user_echoes (user_id : Z) (user : UserBase.t)
    (ignored : option str) (w : World) :
  Ten.serve
    (Ten.PUT_users_id user_id
       (Payload.make (Some (UserBase.email user)) (UserBase.full_name user)
          ignored)) w =
    (mk_Response 200
       (of_user
          {| UserResponse.base :=
               {| UserBase.email := UserBase.email user;
                  UserBase.full_name := UserBase.full_name user |};
             UserResponse.id := user_id;
             UserResponse.is_active := true;
             UserResponse.created_at := clock w |}),
     w) /\
  (exists updated,
     Ten.update_user user_id user w = (inr updated, w) /\
     UserResponse.id updated = user_id /\
     UserResponse.base updated = user /\
     UserBase.email updated = UserBase.email user /\
     UserBase.full_name updated = UserBase.full_name user /\
     UserResponse.is_active updated = true /\
     UserResponse.created_at updated = clock w).
Proof.
  split; [reflexivity|].
  eexists. split; [reflexivity|]. destruct user as [e n]. repeat split.
Qed.

Example update_user_5 :
  fst (Ten.serve
         (Ten.PUT_users_id 5 (Payload.make (Some (lit "x@y.com")) None None))
         a_world) =
  mk_Response 200
    (of_user
       {| UserResponse.base :=
            {| UserBase.email := lit "x@y.com";
               UserBase.full_name := None |};
          UserResponse.id := 5;
          UserResponse.is_active := true;
          UserResponse.created_at := clock a_world |}).
Proof. reflexivity. Qed.

(** An id that GET /users/{user_id} would refuse is updated all the same. *)
Example update_user_minus_3 :
  status_code
    (fst (Ten.serve
            (Ten.PUT_users_id (-3)
               (Payload.make (Some (lit "x@y.com")) (Some (lit "X Y")) None))
            a_world)) = 200.
Proof. reflexivity. Qed.

(** A body without an email is not a [UserBase]. *)
Example update_user_without_email :
  status_code
    (fst (Ten.serve (Ten.PUT_users_id 5 (Payload.make None None None))
            a_world)) = 422.
Proof. reflexivity. Qed.

(** *** DELETE /users/{user_id} *)


Example delete_user_5 :
  fst (Ten.serve (Ten.DELETE_users_id 5) a_world) =
  mk_Response 200
    (of_dict [(lit "message", VStr (lit "User 5 deleted successfully"))]).
Proof. reflexivity. Qed.

(** *** GET /products *)

Lemma get_products_all (w : World) :
  Ten.get_products None w = (inr catalog, w) /\
  Ten.get_products (Some []) w = (inr catalog, w).
Proof. split; reflexivity. Qed.

Lemma get_products_filtered (c : str) (w : World) :
  c <> [] ->
  Ten.get_products (Some c) w =
    (inr (filter (fun p => optional_str_eqb (Product.category p) (Some c))
            catalog), w).
Proof.
  intros Hc. handler_unfold. now rewrite (truthy_nonempty c Hc).
Qed.

(** C7, as amended.  Without a category GET /products answers 200 with the
    catalog, Laptop (Electronics) then Book (Books).  With a category that
    is not the empty string it answers 200 with exactly the items of the
    catalog whose category is that string, code point for code point, in
    catalog order: "Books" gives the Book alone, "Unknown" and "books"
    give no item. *)
Theorem C7_get_products_by_category (c : str) (w : World) (Hc : c <> []) :
  Ten.serve (Ten.GET_products None) w =
    (mk_Response 200 (of_products [laptop; book]), w) /\
  (exists items,
     Ten.serve (Ten.GET_products (Some c)) w =
       (mk_Response 200 (of_products items), w) /\
     items =
       filter (fun p => optional_str_eqb (Product.category p) (Some c))
         [laptop; book] /\
     (forall p, In p items <->
                In p [laptop; book] /\ Product.category p = Some c) /\
     (c = lit "Electronics" -> items = [laptop]) /\
     (c = lit "Books" -> items = [book]) /\
     (c <> lit "Electronics" -> c <> lit "Books" -> items = [])) /\
  Ten.serve (Ten.GET_products (Some (lit "Books"))) w =
    (mk_Response 200 (of_products [book]), w) /\
  Ten.serve (Ten.GET_products (Some (lit "Unknown"))) w =
    (mk_Response 200 (of_products []), w) /\
  Ten.serve (Ten.GET_products (Some (lit "books"))) w =
    (mk_Response 200 (of_products []), w).
Proof.
  split; [reflexivity|]. split; [|repeat split].
  exists (filter (fun p => optional_str_eqb (Product.category p) (Some c))
            [laptop; book]).
  split; [|split; [reflexivity|split; [|split; [|split]]]].
  - serve_unfold. now rewrite (get_products_filtered c w Hc).
  - intros p. rewrite filter_In, optional_str_eqb_eq. reflexivity.
  - intros ->. reflexivity.
  - intros ->. reflexivity.
  - intros HE HB.
    assert (E1 : str_eqb (lit "Electronics") c = false).
    { destruct (str_eqb (lit "Electronics") c) eqn:E; [|reflexivity].
      apply str_eqb_eq in E. congruence. }
    assert (E2 : str_eqb (lit "Books") c = false).
    { destruct (str_eqb (lit "Books") c) eqn:E; [|reflexivity].
      apply str_eqb_eq in E. congruence. }
    unfold laptop, book.
    cbn [filter Product.category optional_str_eqb].
    now rewrite E1, E2.
Qed.

Lemma C7_get_products_by_category_witness :
  Ten.serve (Ten.GET_products None) a_world =
    (mk_Response 200 (of_products [laptop; book]), a_world) /\
  exists items,
    Ten.serve (Ten.GET_products (Some (lit "Electronics"))) a_world =
      (mk_Response 200 (of_products items), a_world) /\
    items = [laptop].
Proof.
  destruct (C7_get_products_by_category (lit "Electronics") a_world)
    as (Hall & (items & Hserve & _ & _ & HE & _) & _).
  - discriminate.
  - split; [exact Hall|]. exists items. split; [exact Hserve | now apply HE].
Defined.

(** C7 without the amendment fails when the category is supplied as the
    empty string: the route sends both items, and neither has the empty
    string as its category. *)
Lemma C7_empty_category_is_not_filtered :
  fst (Ten.serve (Ten.GET_products (Some (lit ""))) a_world) =
    mk_Response 200 (of_products [laptop; book]) /\
  filter (fun p => optional_str_eqb (Product.category p) (Some (lit "")))
    catalog = [] /\
  ~ filters_whenever_supplied (Some (lit "")) a_world.
Proof.
  split; [reflexivity | split; [reflexivity|]].
  unfold filters_whenever_supplied. vm_compute. discriminate.
Qed.

(** C9.  A category supplied as the empty string is treated as a category
    left out: the condition of the handler is false for it, no filter is
    applied, and both items of the catalog are sent. *)
Theorem C9_empty_category_returns_all (w : World) :
  truthy (Some (lit "")) = false /\
  Ten.serve (Ten.GET_products (Some (lit ""))) w =
    (mk_Response 200 (of_products [laptop; book]), w) /\
  Ten.serve (Ten.GET_products (Some (lit ""))) w =
    Ten.serve (Ten.GET_products None) w /\
  filter (fun p => optional_str_eqb (Product.category p) (Some (lit "")))
    [laptop; book] = [].
Proof. repeat split. Qed.

(** *** GET / *)

(** C8.  GET / answers 200 with a body in which [status] is "healthy" and
    [timestamp] is present (it holds the time read from the clock), in
    [ten.py] and in [main.py] alike. *)
Theorem C8_root_is_healthy (w : World) :
  (exists body,
     Ten.serve Ten.GET_root w = (mk_Response 200 (of_dict body), w) /\
     dict_get (lit "status") body = Some (VStr (lit "healthy")) /\
     dict_get (lit "timestamp") body = Some (VDatetime (clock w)) /\
     keys body = [lit "status"; lit "timestamp"]) /\
  (exists body,
     Main.serve Main.GET_root w = (mk_Response 200 (of_dict body), w) /\
     dict_get (lit "status") body = Some (VStr (lit "healthy")) /\
     dict_get (lit "timestamp") body = Some (VDatetime (clock w)) /\
     keys body = [lit "status"; lit "timestamp"]).
Proof.
  split;
    exists [(lit "status", VStr (lit "healthy"));
            (lit "timestamp", VDatetime (clock w))];
    repeat split.
Qed.

(** *** The password of POST /users *)

(** C10.  The answer of POST /users does not depend on the password.  Two
    bodies with the same email and full name, each with a password of at
    least 8 characters, get the same answer when served in the same state,
    and answers that differ at most in [created_at] when served at
    different times.  The handler's result is a function of the email, the
    full name and the clock alone, and [password] is not among the fields
    of [UserResponse], nor a key of what is written for one. *)
Theorem C10_password_does_not_flow
    (email : str) (full_name : option str) (password1 password2 : str)
    (w1 w2 : World)
    (Hlen1 : 8 <= len password1) (Hlen2 : 8 <= len password2) :
  Ten.serve
    (Ten.POST_users (Payload.make (Some email) full_name (Some password1))) w1 =
  Ten.serve
    (Ten.POST_users (Payload.make (Some email) full_name (Some password2))) w1 /\
  (exists r1 r2,
     Ten.serve
       (Ten.POST_users (Payload.make (Some email) full_name (Some password1)))
       w1 = (mk_Response 201 (of_user r1), w1) /\
     Ten.serve
       (Ten.POST_users (Payload.make (Some email) full_name (Some password2)))
       w2 = (mk_Response 201 (of_user r2), w2) /\
     without_created_at r1 = without_created_at r2) /\
  (forall u1 u2 : UserCreate.t,
     UserCreate.base u1 = UserCreate.base u2 ->
     Ten.create_user u1 w1 = Ten.create_user u2 w1) /\
  ~ In (lit "password") UserResponse.fields /\
  (forall r : UserResponse.t,
     dict_get (lit "password") (UserResponse.to_dict r) = None).
Proof.
  split; [|split; [|split; [|split]]].
  - now rewrite !POST_users_accepted.
  - exists (UserResponse_ 2 email full_name true (clock w1)),
           (UserResponse_ 2 email full_name true (clock w2)).
    split; [|split; [|reflexivity]]; now apply POST_users_accepted.
  - intros u1 u2 Hbase. rewrite !create_user_run. now rewrite Hbase.
  - vm_compute. intros H. repeat (destruct H as [H|H]; [discriminate|]). exact H.
  - intros r. reflexivity.
Qed.

Lemma C10_password_does_not_flow_witness :
  Ten.serve
    (Ten.POST_users
       (Payload.make (Some (lit "a@b.com")) None (Some (lit "password1"))))
    a_world =
  Ten.serve
    (Ten.POST_users
       (Payload.make (Some (lit "a@b.com")) None (Some (lit "correct horse"))))
    a_world.
Proof.
  apply (C10_password_does_not_flow (lit "a@b.com") None (lit "password1")
           (lit "correct horse") a_world another_world);
    vm_compute; discriminate.
Defined.

(** ** Beyond single routes *)

(** *** Status codes *)

Lemma Ten_serve_rejected (r : Ten.Request) (errs : list ValidationError)
    (w : World) :
  Ten.validate r = inl errs ->
  Ten.serve r w = (mk_Response 422 (of_errors errs), w).
Proof. unfold Ten.serve. now intros ->. Qed.

Lemma Ten_serve_accepted (r : Ten.Request) (c : Ten.Call) (w : World) :
  Ten.validate r = inr c -> Ten.serve r w = Ten.invoke c w.
Proof. unfold Ten.serve. now intros ->. Qed.

Lemma invoke_status (c : Ten.Call) (w : World) :
  match c with
  | Ten.call_get_user user_id =>
      status_code (fst (Ten.invoke c w)) = if user_id =? 1 then 200 else 404
  | Ten.call_create_user _ => status_code (fst (Ten.invoke c w)) = 201
  | _ => status_code (fst (Ten.invoke c w)) = 200
  end.
Proof.
  destruct c as [ | skip limit | user_id | user | user_id user | user_id
                | category ]; try reflexivity.
  unfold Ten.invoke, respond. handler_unfold. now destruct (user_id =? 1).
Qed.

(** X3.  For a request that matches one of the seven decorated routes of
    [ten.py], its parameters read at their declared types, the status of
    the answer is 200, 201, 404 or 422.  Among these requests it is 422
    exactly when a declared constraint fails, 404 exactly for GET
    /users/{user_id} with an id above 0 other than 1, and 201 exactly for
    POST /users with a body that is accepted.  (Other paths, other methods
    and the routes the framework adds are not among these requests.) *)
Theorem X3_status_codes (r : Ten.Request) (w : World) :
  let status := status_code (fst (Ten.serve r w)) in
  (status = 200 \/ status = 201 \/ status = 404 \/ status = 422) /\
  (status = 422 <-> exists errs, Ten.validate r = inl errs) /\
  (status = 404 <->
     exists user_id, r = Ten.GET_users_id user_id /\ 0 < user_id /\ user_id <> 1) /\
  (status = 201 <->
     exists body user,
       r = Ten.POST_users body /\ UserCreate_parse body = inr user).
Proof.
  cbv zeta.
  destruct (Ten.validate r) as [errs|c] eqn:Hv.
  - rewrite (Ten_serve_rejected r errs w Hv). simpl.
    split; [auto|]. split; [split; eauto|].
    split; (split; [discriminate|]).
    + intros (user_id & -> & Hpos & _). unfold Ten.validate in Hv.
      rewrite (Path_gt_ok _ _ _ Hpos) in Hv. discriminate.
    + intros (body & user & -> & Hparse). unfold Ten.validate in Hv.
      rewrite Hparse in Hv. discriminate.
  - rewrite (Ten_serve_accepted r c w Hv).
    pose proof (invoke_status c w) as Hs.
    assert (Hnot422 : ~ exists errs : list ValidationError,
                          @inr (list ValidationError) Ten.Call c = inl errs)
      by (intros (? & ?); discriminate).
    destruct r as [ | skip limit | user_id | body | user_id body | user_id
                  | category ];
      unfold Ten.validate, vmap in Hv.
    + injection Hv as <-. rewrite Hs. repeat split; auto; try discriminate;
        try tauto; other_route.
    + injection Hv as <-. rewrite Hs. repeat split; auto; try discriminate;
        try tauto; other_route.
    + (* GET /users/{user_id} *)
      unfold Path_gt in Hv.
      destruct (Z.ltb_spec 0 user_id) as [Hpos|]; [|discriminate].
      injection Hv as <-. rewrite Hs.
      destruct (Z.eqb_spec user_id 1) as [->|Hne].
      * repeat split; auto; try discriminate; try tauto.
        -- intros (? & [= <-] & _ & Hne). congruence.
        -- intros (? & ? & ? & _). discriminate.
      * repeat split; auto; try discriminate; try tauto.
        -- intros _. now exists user_id.
        -- intros (? & ? & ? & _). discriminate.
    + (* POST /users *)
      destruct (UserCreate_parse body) as [|user] eqn:Hparse; [discriminate|].
      injection Hv as <-. rewrite Hs.
      repeat split; auto; try discriminate; try tauto.
      * intros (? & ? & _). discriminate.
      * intros _. now exists body, user.
    + (* PUT /users/{user_id} *)
      destruct (UserBase_parse body) as [|user]; [discriminate|].
      injection Hv as <-. rewrite Hs.
      repeat split; auto; try discriminate; try tauto.
      * intros (? & ? & _). discriminate.
      * intros (? & ? & ? & _). discriminate.
    + injection Hv as <-. rewrite Hs. repeat split; auto; try discriminate;
        try tauto; other_route.
    + injection Hv as <-. rewrite Hs. repeat split; auto; try discriminate;
        try tauto; other_route.
Qed.

(** *** The two files *)

(** X4.  On the three routes that [main.py] has, [ten.py] answers every
    request as [main.py] does: the same constraint rejects the same
    requests, and the handlers return the same values. *)
Theorem X4_ten_extends_main (r : Main.Request) (w : World) :
  Main.serve r w = Ten.serve (Main_in_Ten r) w /\
  (forall errs,
     Main.validate r = inl errs <-> Ten.validate (Main_in_Ten r) = inl errs) /\
  Main.root w = Ten.root w /\
  (forall skip limit, Main.get_users skip limit w = Ten.get_users skip limit w) /\
  (forall user_id, Main.get_user user_id w = Ten.get_user user_id w).
Proof.
  split; [|split; [|repeat split]].
  - destruct r as [ | skip limit | user_id ]; try reflexivity.
    unfold Main.serve, Ten.serve, Main_in_Ten, Main.validate, Ten.validate, vmap.
    now destruct (Path_gt (lit "user_id") 0 user_id).
  - intros errs. destruct r as [ | skip limit | user_id ]; simpl;
      try (split; discriminate).
    unfold vmap. destruct (Path_gt (lit "user_id") 0 user_id);
      split; congruence.
Qed.

(** *** Writes that cannot be read back *)

(** X5.  The user that POST /users answers with cannot be fetched: its id
    is 2, GET /users/{that id} answers 404 "User not found" afterwards, and
    the list of GET /users holds no user with that id. *)
Theorem X5_created_user_cannot_be_fetched
    (body : Payload.t) (created : UserResponse.t) (w w' : World)
    (Hcreated :
       Ten.serve (Ten.POST_users body) w =
       (mk_Response 201 (of_user created), w')) :
  UserResponse.id created = 2 /\
  Ten.serve (Ten.GET_users_id (UserResponse.id created)) w' =
    (user_not_found, w') /\
  exists listed,
    Ten.serve (Ten.GET_users None None) w' =
      (mk_Response 200 (of_users listed), w') /\
    forall user, In user listed ->
                 UserResponse.id user <> UserResponse.id created.
Proof.
  assert (Hid : UserResponse.id created = 2).
  { revert Hcreated. unfold Ten.serve, Ten.validate, vmap.
    destruct (UserCreate_parse body) as [errs|user]; [discriminate|].
    unfold Ten.invoke, respond. rewrite create_user_run.
    intros [= <- _]. reflexivity. }
  rewrite Hid. split; [reflexivity|]. split; [reflexivity|].
  exists [john (clock w')]. split; [reflexivity|].
  intros user [<-|[]]. discriminate.
Qed.

Lemma X5_created_user_cannot_be_fetched_witness :
  Ten.serve (Ten.GET_users_id 2) a_world = (user_not_found, a_world).
Proof.
  apply (X5_created_user_cannot_be_fetched
           (Payload.make (Some (lit "a@b.com")) None (Some (lit "password1")))
           (UserResponse_ 2 (lit "a@b.com") None true (clock a_world))
           a_world a_world).
  reflexivity.
Defined.

(** X6.  For a body whose keys are each left out or a string, PUT
    /users/{user_id} is accepted exactly when the email is there: the
    password key is not looked at (a password that POST would refuse as
    too short is no obstacle), and a body with the email left out is
    answered 422 with the one error "field required" at body, email,
    whatever the id.  (A null email is not among these bodies.) *)
Theorem X6_update_needs_only_an_email (user_id : Z) (body : Payload.t)
    (w : World) :
  (status_code (fst (Ten.serve (Ten.PUT_users_id user_id body) w)) = 200
     <-> Payload.email body <> None) /\
  (Payload.email body = None ->
     Ten.serve (Ten.PUT_users_id user_id body) w =
       (mk_Response 422
          (of_errors [mk_error [lit "body"; lit "email"] field_required]),
        w)) /\
  (forall password,
     fst (Ten.serve (Ten.PUT_users_id user_id body) w) =
     fst (Ten.serve
            (Ten.PUT_users_id user_id
               (Payload.make (Payload.email body) (Payload.full_name body)
                  password)) w)).
Proof.
  destruct body as [[e|] fn p]; (split; [|split]); try reflexivity;
    simpl; try discriminate.
  - split; [discriminate | reflexivity].
  - split; [discriminate | congruence].
Qed.

Example update_with_short_password :
  status_code
    (fst (Ten.serve
            (Ten.PUT_users_id 1
               (Payload.make (Some (lit "x@y.com")) None (Some (lit "short"))))
            a_world)) = 200 /\
  status_code
    (fst (Ten.serve
            (Ten.POST_users
               (Payload.make (Some (lit "x@y.com")) None (Some (lit "short"))))
            a_world)) = 422.
Proof. split; reflexivity. Qed.

(** *** Answers that change with the time *)

(** X7.  The mock user is stamped with the time of the request, so GET
    /users/1, GET /users and GET / give equal answers at two moments only
    when the clock shows the same time; the answers of DELETE
    /users/{user_id} and GET /products do not depend on the time at all. *)
Theorem X7_answers_and_the_clock (w1 w2 : World) :
  (fst (Ten.serve (Ten.GET_users_id 1) w1) =
   fst (Ten.serve (Ten.GET_users_id 1) w2) <-> clock w1 = clock w2) /\
  (forall skip limit,
     fst (Ten.serve (Ten.GET_users skip limit) w1) =
     fst (Ten.serve (Ten.GET_users skip limit) w2) <-> clock w1 = clock w2) /\
  (fst (Ten.serve Ten.GET_root w1) = fst (Ten.serve Ten.GET_root w2)
     <-> clock w1 = clock w2) /\
  (forall user_id,
     fst (Ten.serve (Ten.DELETE_users_id user_id) w1) =
     fst (Ten.serve (Ten.DELETE_users_id user_id) w2)) /\
  (forall category,
     fst (Ten.serve (Ten.GET_products category) w1) =
     fst (Ten.serve (Ten.GET_products category) w2)).
Proof.
  split; [|split; [|split; [|split]]]; try reflexivity.
  - split; intros H.
    + simpl in H. now injection H.
    + simpl. now rewrite H.
  - intros skip limit. split; intros H.
    + simpl in H. now injection H.
    + simpl. now rewrite H.
  - split; intros H.
    + simpl in H. now injection H.
    + simpl. now rewrite H.
Qed.

(** ** The description built by [custom_openapi] *)

Lemma str_eqb_neq (a b : str) : a <> b -> str_eqb a b = false.
Proof.
  intros H. destruct (str_eqb a b) eqn:E; [|reflexivity].
  apply str_eqb_eq in E. contradiction.
Qed.

Lemma item_get_set_same (V : Type) (k : str) (v : V) (d : list (str * V)) :
  item_get k (item_set k v d) = Some v.
Proof.
  induction d as [|[k' v'] d IH]; simpl.
  - now rewrite str_eqb_refl.
  - destruct (str_eqb k k') eqn:E; simpl; now rewrite E.
Qed.

Lemma item_get_set_other (V : Type) (k k' : str) (v : V)
    (d : list (str * V)) :
  str_eqb k' k = false -> item_get k' (item_set k v d) = item_get k' d.
Proof.
  intros Hne. induction d as [|[k0 v0] d IH]; simpl.
  - now rewrite Hne.
  - destruct (str_eqb k k0) eqn:E; simpl.
    + apply str_eqb_eq in E. subst k0. now rewrite Hne.
    + now rewrite IH.
Qed.

Lemma item_set_cons (V : Type) (k : str) (v : V) (d : list (str * V)) :
  exists item items, item_set k v d = item :: items.
Proof.
  destruct d as [|[k' v'] d]; simpl; [eauto|].
  destruct (str_eqb k k'); eauto.
Qed.

Lemma item_set_not_nil (V : Type) (k : str) (v : V) (d : list (str * V)) :
  item_set k v d <> [].
Proof.
  destruct (item_set_cons V k v d) as (item & items & ->). discriminate.
Qed.

(** Assigning to a key keeps the keys that are there, in their order, and
    adds at most the assigned key after them. *)
Lemma item_set_keys (V : Type) (k : str) (v : V) (d : list (str * V)) :
  map fst (item_set k v d) =
  map fst d ++ match item_get k d with Some _ => [] | None => [k] end.
Proof.
  induction d as [|[k' v'] d IH]; simpl; [reflexivity|].
  destruct (str_eqb k k') eqn:E; simpl.
  - now rewrite app_nil_r.
  - now rewrite IH.
Qed.

(** The three assignments of [custom_openapi], applied to a description
    whose components are [components]. *)
Lemma custom_openapi_fresh (Routes : Type)
    (get_openapi : str -> str -> str -> Routes -> list (str * json))
    (a : Ten.App Routes) (components : list (str * json)) :
  Ten.openapi_schema a = None \/ Ten.openapi_schema a = Some [] ->
  item_get (lit "components")
    (get_openapi (Ten.title a) (Ten.version a) (Ten.description a)
       (Ten.routes a)) = Some (JDict components) ->
  let schema :=
    item_set (lit "tags") (JList Main.openapi_tags)
      (item_set (lit "servers") (JList Main.servers)
         (item_set (lit "components")
            (JDict (item_set (lit "securitySchemes") bearer_auth components))
            (get_openapi (Ten.title a) (Ten.version a) (Ten.description a)
               (Ten.routes a)))) in
  Ten.custom_openapi get_openapi a = (inr schema, Ten.set_openapi_schema a schema).
Proof.
  intros Hcache Hcomp. unfold Ten.custom_openapi.
  destruct Hcache as [-> | ->]; rewrite Hcomp; reflexivity.
Qed.

(** X8.  With nothing cached (or an empty dictionary cached) and a
    generated description that has components, [custom_openapi] returns a
    description with the bearer scheme under components, securitySchemes,
    with the servers and the tags that [main.py] hands to the constructor
    under "servers" and "tags", and stores what it returns as
    [app.openapi_schema]. *)
Theorem X8_custom_openapi_adds (Routes : Type)
    (get_openapi : str -> str -> str -> Routes -> list (str * json))
    (a : Ten.App Routes) (components : list (str * json))
    (Hcache : Ten.openapi_schema a = None \/ Ten.openapi_schema a = Some [])
    (Hcomp :
       item_get (lit "components")
         (get_openapi (Ten.title a) (Ten.version a) (Ten.description a)
            (Ten.routes a)) = Some (JDict components)) :
  exists schema components',
    Ten.custom_openapi get_openapi a =
      (inr schema, Ten.set_openapi_schema a schema) /\
    Ten.openapi_schema (snd (Ten.custom_openapi get_openapi a)) = Some schema /\
    item_get (lit "components") schema = Some (JDict components') /\
    item_get (lit "securitySchemes") components' = Some bearer_auth /\
    item_get (lit "servers") schema = Some (JList Main.servers) /\
    item_get (lit "tags") schema = Some (JList Main.openapi_tags).
Proof.
  pose proof (custom_openapi_fresh Routes get_openapi a components Hcache Hcomp)
    as Hrun. cbv zeta in Hrun.
  eexists. exists (item_set (lit "securitySchemes") bearer_auth components).
  split; [exact Hrun|]. rewrite Hrun.
  split; [reflexivity|]. split; [|split; [|split]].
  - rewrite !item_get_set_other by reflexivity. apply item_get_set_same.
  - apply item_get_set_same.
  - rewrite item_get_set_other by reflexivity. apply item_get_set_same.
  - apply item_get_set_same.
Qed.

Lemma X8_custom_openapi_adds_witness :
  exists schema components',
    Ten.custom_openapi a_get_openapi (Ten.app some_paths) =
      (inr schema, Ten.set_openapi_schema (Ten.app some_paths) schema) /\
    Ten.openapi_schema
      (snd (Ten.custom_openapi a_get_openapi (Ten.app some_paths))) =
      Some schema /\
    item_get (lit "components") schema = Some (JDict components') /\
    item_get (lit "securitySchemes") components' = Some bearer_auth /\
    item_get (lit "servers") schema = Some (JList Main.servers) /\
    item_get (lit "tags") schema = Some (JList Main.openapi_tags).
Proof.
  apply (X8_custom_openapi_adds (list str) a_get_openapi (Ten.app some_paths)
           [(lit "schemas", JDict [(lit "UserResponse", JDict [])])]).
  - left. reflexivity.
  - reflexivity.
Defined.

(** X9.  What [custom_openapi] does not assign it keeps: every other key
    of the generated description has the value it had, every other key
    of its components too, and the keys of the generated description come
    first, in their order, in what is returned. *)
Theorem X9_custom_openapi_keeps (Routes : Type)
    (get_openapi : str -> str -> str -> Routes -> list (str * json))
    (a : Ten.App Routes) (components schema : list (str * json))
    (a' : Ten.App Routes)
    (Hcache : Ten.openapi_schema a = None \/ Ten.openapi_schema a = Some [])
    (Hcomp :
       item_get (lit "components")
         (get_openapi (Ten.title a) (Ten.version a) (Ten.description a)
            (Ten.routes a)) = Some (JDict components))
    (Hrun : Ten.custom_openapi get_openapi a = (inr schema, a')) :
  let generated :=
    get_openapi (Ten.title a) (Ten.version a) (Ten.description a)
      (Ten.routes a) in
  (forall k,
     k <> lit "components" -> k <> lit "servers" -> k <> lit "tags" ->
     item_get k schema = item_get k generated) /\
  (exists components',
     item_get (lit "components") schema = Some (JDict components') /\
     forall k, k <> lit "securitySchemes" ->
               item_get k components' = item_get k components) /\
  (exists added, map fst schema = map fst generated ++ added) /\
  Ten.title a' = Ten.title a /\ Ten.version a' = Ten.version a /\
  Ten.description a' = Ten.description a /\ Ten.routes a' = Ten.routes a.
Proof.
  pose proof (custom_openapi_fresh Routes get_openapi a components Hcache Hcomp)
    as Hfresh. cbv zeta in Hfresh. rewrite Hfresh in Hrun.
  injection Hrun as <- <-. cbv zeta.
  split; [|split; [|split; [|repeat split]]].
  - intros k Hc Hs Ht.
    rewrite !item_get_set_other by now apply str_eqb_neq. reflexivity.
  - exists (item_set (lit "securitySchemes") bearer_auth components). split.
    + rewrite !item_get_set_other by reflexivity. apply item_get_set_same.
    + intros k Hk. now rewrite item_get_set_other by now apply str_eqb_neq.
  - rewrite !item_set_keys, <- !app_assoc. eexists. reflexivity.
Qed.

Lemma X9_custom_openapi_keeps_witness :
  item_get (lit "paths")
    (a_get_openapi (lit "My API") (lit "1.0.0")
       (lit "API for managing users and products") some_paths) =
  item_get (lit "paths")
    (match fst (Ten.custom_openapi a_get_openapi (Ten.app some_paths)) with
     | inr schema => schema
     | inl _ => []
     end).
Proof.
  destruct (Ten.custom_openapi a_get_openapi (Ten.app some_paths))
    as [[e|schema] a'] eqn:Hrun; [discriminate|].
  symmetry.
  apply (X9_custom_openapi_keeps (list str) a_get_openapi
           (Ten.app some_paths)
           [(lit "schemas", JDict [(lit "UserResponse", JDict [])])]
           schema a');
    try discriminate; try reflexivity.
  - left. reflexivity.
  - exact Hrun.
Defined.

Lemma custom_openapi_cached (Routes : Type)
    (get_openapi : str -> str -> str -> Routes -> list (str * json))
    (a : Ten.App Routes) (item : str * json) (items : list (str * json)) :
  Ten.openapi_schema a = Some (item :: items) ->
  Ten.custom_openapi get_openapi a = (inr (item :: items), a).
Proof. unfold Ten.custom_openapi. now intros ->. Qed.

(** X10.  Once [custom_openapi] has returned a description, every later
    call returns that same description and leaves the application as it
    is, whatever [get_openapi] would produce by then: routes registered
    after the first call never show up. *)
Theorem X10_custom_openapi_is_cached (Routes : Type)
    (get_openapi later_get_openapi
       : str -> str -> str -> Routes -> list (str * json))
    (a a' : Ten.App Routes) (schema : list (str * json))
    (Hfirst : Ten.custom_openapi get_openapi a = (inr schema, a')) :
  Ten.openapi_schema a' = Some schema /\
  schema <> [] /\
  Ten.custom_openapi later_get_openapi a' = (inr schema, a').
Proof.
  assert (Hcached : Ten.openapi_schema a' = Some schema /\ schema <> []).
  { revert Hfirst. unfold Ten.custom_openapi.
    destruct (Ten.openapi_schema a) as [[|item items]|] eqn:Hcache;
      try (intros [= <- <-]; split; [exact Hcache | discriminate]);
      (destruct (item_get _ _) as [[| | | | | |components]|];
       try discriminate; intros [= <- <-];
       split; [reflexivity | apply item_set_not_nil]). }
  destruct Hcached as [Hsome Hne]. split; [exact Hsome|]. split; [exact Hne|].
  destruct schema as [|item items]; [contradiction|].
  now apply custom_openapi_cached.
Qed.

Lemma X10_custom_openapi_is_cached_witness :
  Ten.custom_openapi a_bare_get_openapi
    (snd (Ten.custom_openapi a_get_openapi (Ten.app some_paths))) =
  (fst (Ten.custom_openapi a_get_openapi (Ten.app some_paths)),
   snd (Ten.custom_openapi a_get_openapi (Ten.app some_paths))).
Proof.
  destruct (Ten.custom_openapi a_get_openapi (Ten.app some_paths))
    as [[e|schema] a'] eqn:Hfirst; [discriminate|].
  apply (X10_custom_openapi_is_cached (list str) a_get_openapi
           a_bare_get_openapi (Ten.app some_paths) a' schema Hfirst).
Defined.

(** X11.  [custom_openapi] fails only on a generated description without
    usable components: [KeyError] on "components" when the key is missing,
    [TypeError] when its value is not a dictionary.  A failed call caches
    nothing and leaves the application as it was, and with nothing cached
    a missing key always fails. *)
Theorem X11_custom_openapi_failure (Routes : Type)
    (get_openapi : str -> str -> str -> Routes -> list (str * json))
    (a : Ten.App Routes) :
  let generated :=
    get_openapi (Ten.title a) (Ten.version a) (Ten.description a)
      (Ten.routes a) in
  (forall e a',
     Ten.custom_openapi get_openapi a = (inl e, a') ->
     a' = a /\
     (Ten.openapi_schema a = None \/ Ten.openapi_schema a = Some []) /\
     match e with
     | KeyError key =>
         key = lit "components" /\ item_get (lit "components") generated = None
     | TypeError =>
         exists v, item_get (lit "components") generated = Some v /\
                   forall d, v <> JDict d
     end) /\
  (Ten.openapi_schema a = None \/ Ten.openapi_schema a = Some [] ->
   item_get (lit "components") generated = None ->
   Ten.custom_openapi get_openapi a = (inl (KeyError (lit "components")), a)).
Proof.
  cbv zeta. split.
  - intros e a'. unfold Ten.custom_openapi.
    destruct (Ten.openapi_schema a) as [[|item items]|]; try discriminate;
      (destruct (item_get _ _) as [v|] eqn:Hget;
       [ destruct v; try discriminate; intros [= <- <-];
         (split; [reflexivity|]; split; [auto|]; eexists; split;
          [reflexivity | discriminate])
       | intros [= <- <-]; auto ]).
  - intros Hcache Hmissing. unfold Ten.custom_openapi.
    destruct Hcache as [-> | ->]; now rewrite Hmissing.
Qed.

Lemma X11_custom_openapi_failure_witness :
  Ten.custom_openapi a_bare_get_openapi (Ten.app some_paths) =
  (inl (KeyError (lit "components")), Ten.app some_paths).
Proof.
  apply (X11_custom_openapi_failure (list str) a_bare_get_openapi
           (Ten.app some_paths)).
  - left. reflexivity.
  - reflexivity.
Defined.
